(** * Booking API: a shallow embedding of [app.py] and [seed_data.py]

    The Flask handlers [get_classes], [create_booking], [get_bookings] and
    [create_class] are embedded as functions from the database contents, the
    values the handler reads from its surroundings (clock, uuid generator) and
    the request to the new database contents and the response.

    Conventions of the embedding:
    - requests run one at a time: a handler is one step from the database
      before the request to the database after it;
    - the two tables are lists of rows in insertion order, and a row is read
      back as it was inserted; the primary key on [id] is enforced on insert
      (a colliding insert raises [IntegrityError]);
    - a datetime is an integer number of seconds on the Asia/Kolkata wall
      clock (the code stores and compares every datetime in that zone);
    - a request body is a JSON object in which each documented field is either
      absent or holds a value of the type the handler's docstring gives it;
    - strings are ASCII text;
    - exceptions are values of [exn]; a handler's [try]/[except] is a match on
      the result of its body;
    - library functions whose behaviour is not in the repository
      ([datetime.fromisoformat], [isoformat], [ZoneInfo], [astimezone],
      [str] of an exception) are the fields of the class [Runtime]. *)

From Stdlib Require Import ZArith String Ascii List Bool Lia.
From stdpp Require Import base option list gmap strings.

Open Scope string_scope.
Open Scope Z_scope.

(** ** Regular expressions, as far as [validate_email] needs them *)

Module Re.

Inductive regex : Type :=
| Void
| Eps
| Class (p : ascii → bool)
| Cat (r1 r2 : regex)
| Alt (r1 r2 : regex)
| Star (r : regex).

Definition Chr (c : ascii) : regex := Class (Ascii.eqb c).
Definition Plus (r : regex) : regex := Cat r (Star r).

Fixpoint nullable (r : regex) : bool :=
  match r with
  | Void => false
  | Eps => true
  | Class _ => false
  | Cat r1 r2 => nullable r1 && nullable r2
  | Alt r1 r2 => nullable r1 || nullable r2
  | Star _ => true
  end.

Fixpoint deriv (a : ascii) (r : regex) : regex :=
  match r with
  | Void => Void
  | Eps => Void
  | Class p => if p a then Eps else Void
  | Cat r1 r2 =>
      if nullable r1
      then Alt (Cat (deriv a r1) r2) (deriv a r2)
      else Cat (deriv a r1) r2
  | Alt r1 r2 => Alt (deriv a r1) (deriv a r2)
  | Star r1 => Cat (deriv a r1) (Star r1)
  end.

Fixpoint fullmatch (r : regex) (s : string) : bool :=
  match s with
  | EmptyString => nullable r
  | String a s' => fullmatch (deriv a r) s'
  end.

(** [re.match('^' r '$', s)]: without MULTILINE, [$] holds at the end of the
    string and just before a newline that ends the string. *)
Definition match_anchored (r : regex) (s : string) : bool :=
  fullmatch (Cat r (Alt Eps (Chr "010"))) s.

End Re.

(** ** Character classes and [str.strip] *)

Definition code (a : ascii) : nat := nat_of_ascii a.

Definition between (lo hi : nat) (a : ascii) : bool :=
  (lo <=? code a)%nat && (code a <=? hi)%nat.

(** [\w] on ASCII text: letters, digits and the underscore. *)
Definition is_word (a : ascii) : bool :=
  between 48 57 a || between 65 90 a || between 97 122 a || Ascii.eqb a "_".

(** [[\w\.-]] *)
Definition is_word_dot_dash (a : ascii) : bool :=
  is_word a || Ascii.eqb a "." || Ascii.eqb a "-".

(** The characters [str.strip()] removes: tab to carriage return, the four
    separators 0x1c to 0x1f, and the space. *)
Definition is_whitespace (a : ascii) : bool :=
  between 9 13 a || between 28 31 a || Ascii.eqb a " ".

Fixpoint lstrip (s : string) : string :=
  match s with
  | EmptyString => EmptyString
  | String a s' => if is_whitespace a then lstrip s' else s
  end.

Definition rstrip (s : string) : string := String.rev (lstrip (String.rev s)).

Definition strip (s : string) : string := rstrip (lstrip s).

(** Truth value of a Python string: non-empty. *)
Definition truthy (s : string) : bool :=
  match s with EmptyString => false | String _ _ => true end.

(** ** Helper functions of [app.py] *)

(** pattern = r'^[\w\.-]+@[\w\.-]+\.\w+$' *)
Definition pattern : Re.regex :=
  Re.Cat (Re.Plus (Re.Class is_word_dot_dash))
    (Re.Cat (Re.Chr "@")
       (Re.Cat (Re.Plus (Re.Class is_word_dot_dash))
          (Re.Cat (Re.Chr ".") (Re.Plus (Re.Class is_word))))).

Definition validate_email (email : string) : bool :=
  Re.match_anchored pattern email.

Definition allowed_classes : list string := ["Yoga"; "Zumba"; "HIIT"].

Definition validate_class_type (name : string) : bool :=
  bool_decide (name ∈ allowed_classes).

(** ** Database models *)

Module ClassSchedule.
Record t : Type := mk {
  id : string;
  name : string;
  instructor : string;
  date_time : Z;      (* Stored in IST *)
  capacity : Z
}.
End ClassSchedule.

Module Booking.
Record t : Type := mk {
  id : string;
  class_id : string;
  user_name : string;
  user_email : string;
  booking_time : Z
}.
End Booking.

(** The contents of the two tables, rows in insertion order. *)
Record db : Type := Db {
  class_schedule : list ClassSchedule.t;
  booking : list Booking.t
}.

(** [db.create_all()] on a new database. *)
Definition create_all : db := {| class_schedule := []; booking := [] |}.

(** ** Requests, responses, exceptions *)

Set Warnings "-register-all".

Inductive json : Type :=
| JStr (s : string)
| JInt (z : Z)
| JArr (l : list json)
| JObj (l : list (string * json)).

(** [jsonify(body), status] *)
Definition response : Type := json * Z.

(** Query parameters and parsed JSON body of a request. *)
Record request (B : Type) : Type := Request {
  args : gmap string string;
  get_json : B
}.
Arguments Request {B} _ _.
Arguments args {B} _.
Arguments get_json {B} _.

(** Body of POST /api/book. *)
Module BookingData.
Record t : Type := mk {
  class_id : option string;
  user_name : option string;
  user_email : option string
}.
End BookingData.

(** Body of POST /api/classes. *)
Module ClassData.
Record t : Type := mk {
  name : option string;
  instructor : option string;
  date_time : option string;
  capacity : option Z
}.
End ClassData.

Inductive exn : Type :=
| NotFound          (* werkzeug.exceptions.NotFound, raised by get_or_404 *)
| ValueError
| AttributeError
| IntegrityError.   (* sqlalchemy.exc.IntegrityError *)

Inductive result (A : Type) : Type :=
| Return (a : A)
| Raise (e : exn).
Arguments Return {A} _.
Arguments Raise {A} _.

#[global] Instance result_ret : MRet result := @Return.
#[global] Instance result_bind : MBind result :=
  λ A B f m, match m with Return a => f a | Raise e => Raise e end.

(** What a handler reads from its surroundings while it runs. *)
Record env : Type := Env {
  now : Z;           (* datetime.now(ZoneInfo("Asia/Kolkata")) in the handler *)
  now_default : Z;   (* the same clock, read by the booking_time default *)
  uuid4 : string     (* str(uuid.uuid4()), the id default *)
}.

(** Library functions used by the handlers. *)
Class Runtime : Type := {
  tzinfo : Type;
  (* datetime.fromisoformat(s).replace(tzinfo=ZoneInfo("Asia/Kolkata"));
     None: ValueError *)
  fromisoformat : string → option Z;
  (* dt.isoformat() *)
  isoformat : Z → string;
  (* ZoneInfo(tz_name); None: an exception *)
  ZoneInfo : string → option tzinfo;
  (* dt.astimezone(target_tz).isoformat(); None: an exception *)
  astimezone_isoformat : Z → tzinfo → option string;
  (* str(e) *)
  str : exn → string
}.

(** {'error': msg} *)
Definition error (msg : string) : json := JObj [("error", JStr msg)].

(** ** Queries *)

(** ClassSchedule.query.get(ident) *)
Definition get (s : db) (ident : string) : option ClassSchedule.t :=
  head (filter (λ c, ClassSchedule.id c = ident) (class_schedule s)).

Definition get_or_404 (s : db) (ident : string) : result ClassSchedule.t :=
  match get s ident with
  | Some cls => Return cls
  | None => Raise NotFound
  end.

(** cls.bookings *)
Definition bookings (s : db) (cls : ClassSchedule.t) : list Booking.t :=
  filter (λ b, Booking.class_id b = ClassSchedule.id cls) (booking s).

(** len(cls.bookings) *)
Definition len_bookings (s : db) (cls : ClassSchedule.t) : Z :=
  Z.of_nat (length (bookings s cls)).

(** Booking.query.filter_by(class_id=..., user_email=...) *)
Definition filter_by (s : db) (class_id user_email : string) : list Booking.t :=
  filter (λ b, Booking.class_id b = class_id ∧ Booking.user_email b = user_email)
         (booking s).

(** Booking.query.filter_by(user_email=email).all() *)
Definition filter_by_email (s : db) (email : string) : list Booking.t :=
  filter (λ b, Booking.user_email b = email) (booking s).

(** db.session.add(row); db.session.commit() on either table: the primary
    key must be new. *)
Definition add_class (s : db) (c : ClassSchedule.t) : result db :=
  if bool_decide (ClassSchedule.id c ∈ ClassSchedule.id <$> class_schedule s)
  then Raise IntegrityError
  else Return {| class_schedule := class_schedule s ++ [c]; booking := booking s |}.

Definition add_row (s : db) (b : Booking.t) : result db :=
  if bool_decide (Booking.id b ∈ Booking.id <$> booking s)
  then Raise IntegrityError
  else Return {| class_schedule := class_schedule s; booking := booking s ++ [b] |}.

(** ** The handlers *)

Section Handlers.
Context `{Runtime}.

Definition convert_to_timezone (dt : Z) (tz_name : string) : string :=
  match ZoneInfo tz_name ≫= astimezone_isoformat dt with
  | Some iso => iso
  | None => isoformat dt      (* except Exception *)
  end.

(** One element of the result list of [get_classes]; [render] is the
    conversion applied to the stored date_time. *)
Definition class_entry (render : Z → string) (s : db) (cls : ClassSchedule.t) : json :=
  JObj [("id", JStr (ClassSchedule.id cls));
        ("name", JStr (ClassSchedule.name cls));
        ("instructor", JStr (ClassSchedule.instructor cls));
        ("date_time", JStr (render (ClassSchedule.date_time cls)));
        ("capacity", JInt (ClassSchedule.capacity cls));
        ("available_slots", JInt (ClassSchedule.capacity cls - len_bookings s cls))].

(** The classes selected by the query of [get_classes]. *)
Definition upcoming (s : db) (e : env) : list ClassSchedule.t :=
  filter (λ c, now e ≤ ClassSchedule.date_time c) (class_schedule s).

(** GET /api/classes *)
Definition get_classes (s : db) (e : env) (req : request unit) : db * response :=
  let tz_name := default "Asia/Kolkata" (args req !! "timezone") in
  let classes := upcoming s e in
  let result := class_entry (λ dt, convert_to_timezone dt tz_name) s <$> classes in
  (s, (JArr result, 200)).

(** Lines 158-164 of [create_booking]: build the row, add it, commit. *)
Definition add_booking (s : db) (e : env) (class_id user_name user_email : string)
  : result (db * Booking.t) :=
  let new_booking :=
    {| Booking.id := uuid4 e;
       Booking.class_id := class_id;
       Booking.user_name := user_name;
       Booking.user_email := user_email;
       Booking.booking_time := now_default e |} in
  s' ← add_row s new_booking;
  Return (s', new_booking).

Definition booking_json (b : Booking.t) : json :=
  JObj [("id", JStr (Booking.id b));
        ("class_id", JStr (Booking.class_id b));
        ("user_name", JStr (Booking.user_name b));
        ("user_email", JStr (Booking.user_email b));
        ("booking_time", JStr (isoformat (Booking.booking_time b)))].

(** The body of the [try] block of [create_booking]. *)
Definition create_booking_try (s : db) (e : env) (data : BookingData.t)
  : result (db * response) :=
  match BookingData.class_id data, BookingData.user_name data,
        BookingData.user_email data with
  | Some class_id, Some user_name, Some user_email =>
      if negb (validate_email user_email)
      then Return (s, (error "Invalid email format", 400))
      else if negb (truthy (strip user_name))
      then Return (s, (error "User name cannot be empty", 400))
      else
        cls ← get_or_404 s class_id;
        if ClassSchedule.date_time cls <? now e
        then Return (s, (error "Cannot book a past class", 400))
        else if ClassSchedule.capacity cls <=? len_bookings s cls
        then Return (s, (error "Class is fully booked", 400))
        else match head (filter_by s class_id user_email) with
             | Some _ => Return (s, (error "User already booked this class", 400))
             | None =>
                 '(s', new_booking) ← add_booking s e class_id user_name user_email;
                 Return (s', (booking_json new_booking, 201))
             end
  | _, _, _ => Return (s, (error "Missing required fields", 400))
  end.

(** POST /api/book *)
Definition create_booking (s : db) (e : env) (req : request BookingData.t)
  : db * response :=
  match create_booking_try s e (get_json req) with
  | Return r => r
  | Raise ex => (s, (error (str ex), 500))     (* db.session.rollback() *)
  end.

(** One element of the result list of [get_bookings]. *)
Definition booking_entry (render : Z → string) (s : db) (b : Booking.t) : result json :=
  match get s (Booking.class_id b) with
  | None => Raise AttributeError       (* b.class_schedule is None *)
  | Some class_schedule =>
      Return (JObj [("id", JStr (Booking.id b));
                    ("class_id", JStr (Booking.class_id b));
                    ("class_name", JStr (ClassSchedule.name class_schedule));
                    ("date_time", JStr (render (ClassSchedule.date_time class_schedule)));
                    ("user_name", JStr (Booking.user_name b));
                    ("user_email", JStr (Booking.user_email b));
                    ("booking_time", JStr (isoformat (Booking.booking_time b)))])
  end.

Definition get_bookings_try (s : db) (req : request unit) : result (db * response) :=
  match args req !! "email" with
  | Some email =>
      if negb (truthy email) || negb (validate_email email)
      then Return (s, (error "Valid email parameter required", 400))
      else
        let tz_name := default "Asia/Kolkata" (args req !! "timezone") in
        result ← mapM (booking_entry (λ dt, convert_to_timezone dt tz_name) s)
                      (filter_by_email s email);
        Return (s, (JArr result, 200))
  | None => Return (s, (error "Valid email parameter required", 400))
  end.

(** GET /api/bookings *)
Definition get_bookings (s : db) (req : request unit) : db * response :=
  match get_bookings_try s req with
  | Return r => r
  | Raise ex => (s, (error (str ex), 500))
  end.

Definition class_json (c : ClassSchedule.t) : json :=
  JObj [("id", JStr (ClassSchedule.id c));
        ("name", JStr (ClassSchedule.name c));
        ("instructor", JStr (ClassSchedule.instructor c));
        ("date_time", JStr (isoformat (ClassSchedule.date_time c)));
        ("capacity", JInt (ClassSchedule.capacity c))].

(** The body of the [try] block of [create_class]. *)
Definition create_class_try (s : db) (e : env) (data : ClassData.t)
  : result (db * response) :=
  match ClassData.name data, ClassData.instructor data,
        ClassData.date_time data, ClassData.capacity data with
  | Some name, Some instructor, Some date_time_str, Some capacity =>
      if negb (validate_class_type name)
      then Return (s, (error "Invalid class type. Must be Yoga, Zumba, or HIIT", 400))
      else
        date_time ← match fromisoformat date_time_str with
                    | Some dt => Return dt
                    | None => Raise ValueError
                    end;
        if date_time <? now e
        then Return (s, (error "Cannot schedule class in the past", 400))
        else if capacity <=? 0
        then Return (s, (error "Capacity must be positive", 400))
        else
          let new_class :=
            {| ClassSchedule.id := uuid4 e;
               ClassSchedule.name := name;
               ClassSchedule.instructor := instructor;
               ClassSchedule.date_time := date_time;
               ClassSchedule.capacity := capacity |} in
          s' ← add_class s new_class;
          Return (s', (class_json new_class, 201))
  | _, _, _, _ => Return (s, (error "Missing required fields", 400))
  end.

(** POST /api/classes *)
Definition create_class (s : db) (e : env) (req : request ClassData.t)
  : db * response :=
  match create_class_try s e (get_json req) with
  | Return r => r
  | Raise ValueError =>
      (s, (error "Invalid date format. Use ISO format (e.g., 2025-06-07T15:00:00)", 400))
  | Raise ex => (s, (error (str ex), 500))     (* db.session.rollback() *)
  end.

End Handlers.

(** ** [seed_data.py] *)

(** Days from 1970-01-01 to the given date of the proleptic Gregorian
    calendar. *)
Definition days_from_civil (year month day : Z) : Z :=
  let y := if month <=? 2 then year - 1 else year in
  let era := y / 400 in
  let yoe := y - era * 400 in
  let mp := if month <=? 2 then month + 9 else month - 3 in
  let doy := (153 * mp + 2) / 5 + day - 1 in
  let doe := yoe * 365 + yoe / 4 - yoe / 100 + doy in
  era * 146097 + doe - 719468.

(** datetime(year, month, day, hour, minute, tzinfo=ZoneInfo("Asia/Kolkata")) *)
Definition datetime (year month day hour minute : Z) : Z :=
  days_from_civil year month day * 86400 + hour * 3600 + minute * 60.

(** [seed_data()]: drop_all, create_all, then one sample class. *)
Definition seed_data (e : env) : db :=
  {| class_schedule :=
       [ {| ClassSchedule.id := uuid4 e;
            ClassSchedule.name := "Yoga";
            ClassSchedule.instructor := "Jane Doe";
            ClassSchedule.date_time := datetime 2025 6 8 10 0;
            ClassSchedule.capacity := 10 |} ];
     booking := [] |}.

(** ** A concrete runtime, to run the handlers on examples

    Timezones with a fixed offset, the datetime format of the docstring of
    [create_class] ('2025-06-08T10:00:00'), and exception texts. *)

Module Fixed.

Definition digit (n : Z) : string :=
  String (ascii_of_nat (48 + Z.to_nat (n mod 10))) EmptyString.

Definition pad2 (n : Z) : string := digit (n / 10) +:+ digit n.

Definition pad4 (n : Z) : string := pad2 (n / 100) +:+ pad2 n.

(** (year, month, day) of a day number. *)
Definition civil_from_days (days : Z) : Z * Z * Z :=
  let z := days + 719468 in
  let era := z / 146097 in
  let doe := z - era * 146097 in
  let yoe := (doe - doe / 1460 + doe / 36524 - doe / 146096) / 365 in
  let doy := doe - (365 * yoe + yoe / 4 - yoe / 100) in
  let mp := (5 * doy + 2) / 153 in
  let d := doy - (153 * mp + 2) / 5 + 1 in
  let m := if mp <? 10 then mp + 3 else mp - 9 in
  let y := yoe + era * 400 in
  (if m <=? 2 then y + 1 else y, m, d).

(** UTC offset of Asia/Kolkata, in seconds. *)
Definition kolkata : Z := 19800.

(** "+05:30" *)
Definition offset_string (offset : Z) : string :=
  let a := Z.abs offset in
  (if offset <? 0 then "-" else "+") +:+ pad2 (a / 3600) +:+ ":" +:+ pad2 (a mod 3600 / 60).

(** ISO text of wall-clock seconds [t] shown with UTC offset [offset]. *)
Definition iso (t offset : Z) : string :=
  let '(y, m, d) := civil_from_days (t / 86400) in
  let r := t mod 86400 in
  pad4 y +:+ "-" +:+ pad2 m +:+ "-" +:+ pad2 d +:+ "T" +:+
  pad2 (r / 3600) +:+ ":" +:+ pad2 (r mod 3600 / 60) +:+ ":" +:+ pad2 (r mod 60) +:+
  offset_string offset.

Fixpoint number_from (acc : Z) (s : string) : option Z :=
  match s with
  | EmptyString => Some acc
  | String a s' =>
      if between 48 57 a
      then number_from (10 * acc + Z.of_nat (code a) - 48) s'
      else None
  end.

Definition field (s : string) (start n : nat) : option Z :=
  number_from 0 (String.substring start n s).

Definition check (P : Prop) `{Decision P} : option unit :=
  if decide P then Some () else None.

Definition sep (s : string) (i : nat) (c : ascii) : option unit :=
  check (String.get i s = Some c).

Definition days_in_month (y m : Z) : Z :=
  if m =? 2
  then if ((y mod 4 =? 0) && negb (y mod 100 =? 0)) || (y mod 400 =? 0) then 29 else 28
  else if bool_decide (m ∈ [4; 6; 9; 11]) then 30 else 31.

(** Parses exactly YYYY-MM-DDTHH:MM:SS. *)
Definition parse (s : string) : option Z :=
  check (String.length s = 19%nat);;
  y ← field s 0 4; sep s 4 "-";;
  m ← field s 5 2; sep s 7 "-";;
  d ← field s 8 2; sep s 10 "T";;
  hh ← field s 11 2; sep s 13 ":";;
  mm ← field s 14 2; sep s 16 ":";;
  ss ← field s 17 2;
  check (1 ≤ y ∧ 1 ≤ m ≤ 12 ∧ 1 ≤ d ≤ days_in_month y m ∧ hh < 24 ∧ mm < 60 ∧ ss < 60);;
  Some (datetime y m d hh mm + ss).

Definition zone (tz_name : string) : option Z :=
  if bool_decide (tz_name = "Asia/Kolkata") then Some kolkata
  else if bool_decide (tz_name = "UTC") then Some 0
  else if bool_decide (tz_name = "Asia/Tokyo") then Some 32400
  else if bool_decide (tz_name = "America/Bogota") then Some (-18000)
  else None.

Definition message (e : exn) : string :=
  match e with
  | NotFound => "404 Not Found: The requested URL was not found on the server. If you entered the URL manually please check your spelling and try again."
  | ValueError => "ValueError"
  | AttributeError => "'NoneType' object has no attribute 'name'"
  | IntegrityError => "(sqlite3.IntegrityError) UNIQUE constraint failed"
  end.

Definition runtime : Runtime :=
  {| tzinfo := Z;
     fromisoformat := parse;
     isoformat := λ dt, iso dt kolkata;
     ZoneInfo := zone;
     astimezone_isoformat := λ dt tz, Some (iso (dt - kolkata + tz) tz);
     str := message |}.

End Fixed.

(** ** The error kinds of the specification, as responses of the handlers *)

Definition MissingField : response := (error "Missing required fields", 400).
Definition InvalidEmail : response := (error "Invalid email format", 400).
Definition EmptyUserName : response := (error "User name cannot be empty", 400).
Definition PastClass : response := (error "Cannot book a past class", 400).
Definition ClassFull : response := (error "Class is fully booked", 400).
Definition AlreadyBooked : response := (error "User already booked this class", 400).
Definition InvalidClassType : response :=
  (error "Invalid class type. Must be Yoga, Zumba, or HIIT", 400).
Definition PastSchedule : response := (error "Cannot schedule class in the past", 400).
Definition InvalidCapacity : response := (error "Capacity must be positive", 400).
Definition InvalidDateFormat : response :=
  (error "Invalid date format. Use ISO format (e.g., 2025-06-07T15:00:00)", 400).

(** An exception that reaches [except Exception]; the 404 of [get_or_404] is
    raised inside the [try] block of [create_booking] and ends here too. *)
Definition InternalError `{Runtime} (ex : exn) : response := (error (str ex), 500).


(** ** Reachable database states *)

Section Reachable.
Context `{Runtime}.

(** The states the database goes through when the seed script and the
    handlers run one after the other. *)
Inductive reachable : db → Prop :=
| reachable_create_all : reachable create_all
| reachable_seed_data e : reachable (seed_data e)
| reachable_get_classes s e req :
    reachable s → reachable (get_classes s e req).1
| reachable_get_bookings s req :
    reachable s → reachable (get_bookings s req).1
| reachable_create_class s e req :
    reachable s → reachable (create_class s e req).1
| reachable_create_booking s e req :
    reachable s → reachable (create_booking s e req).1.

(** The key of the duplicate check. *)
Definition booking_key (b : Booking.t) : string * string :=
  (Booking.class_id b, Booking.user_email b).

Definition capacity_ok (s : db) : Prop :=
  ∀ cls, cls ∈ class_schedule s → len_bookings s cls ≤ ClassSchedule.capacity cls.

Definition no_duplicate_booking (s : db) : Prop :=
  NoDup (booking_key <$> booking s).

Definition foreign_key_ok (s : db) : Prop :=
  ∀ b, b ∈ booking s → Booking.class_id b ∈ ClassSchedule.id <$> class_schedule s.

Record invariant (s : db) : Prop := Invariant {
  inv_primary_key : NoDup (ClassSchedule.id <$> class_schedule s);
  inv_foreign_key : foreign_key_ok s;
  inv_capacity : capacity_ok s;
  inv_no_duplicate : no_duplicate_booking s
}.

End Reachable.

(** ** Notions used to state the properties *)

(** The booking that [add_booking] builds. *)
Definition new_booking (e : env) (class_id user_name user_email : string) : Booking.t :=
  {| Booking.id := uuid4 e;
     Booking.class_id := class_id;
     Booking.user_name := user_name;
     Booking.user_email := user_email;
     Booking.booking_time := now_default e |}.

(** The class that [create_class] builds. *)
Definition new_class (e : env) (name instructor : string) (date_time capacity : Z)
  : ClassSchedule.t :=
  {| ClassSchedule.id := uuid4 e;
     ClassSchedule.name := name;
     ClassSchedule.instructor := instructor;
     ClassSchedule.date_time := date_time;
     ClassSchedule.capacity := capacity |}.

(** A JSON object without one of its keys. *)
Definition drop_key (k : string) (j : json) : json :=
  match j with
  | JObj l => JObj (filter (λ kv, kv.1 ≠ k) l)
  | _ => j
  end.

(** A response whose list elements have lost their date_time. *)
Definition without_date_time (r : response) : response :=
  match r with
  | (JArr l, status) => (JArr (drop_key "date_time" <$> l), status)
  | _ => r
  end.

(** The value under a key of a JSON object. *)
Definition field_of (k : string) (j : json) : option json :=
  match j with
  | JObj l => snd <$> head (filter (λ kv, kv.1 = k) l)
  | _ => None
  end.

(** Two sets of query parameters that differ at most in [timezone]. *)
Definition same_but_timezone (a1 a2 : gmap string string) : Prop :=
  delete "timezone" a1 = delete "timezone" a2.

(** ** A studio with one class of capacity 1, on the concrete runtime *)

Module Studio.

#[local] Existing Instance Fixed.runtime.

Definition t0 : Z := datetime 2025 6 1 9 0.

Definition class_uuid : string := "3f2b8c1e-5d47-4a6b-9e0f-1a2b3c4d5e6f".
Definition alice_uuid : string := "7a1d9e42-0c3b-4f58-8b6a-2e4f6a8c0b1d".
Definition bob_uuid : string := "c4e8a2b6-9f13-4d75-a0c2-6b8d0f2a4c6e".
Definition other_uuid : string := "0d9c8b7a-6f5e-4d3c-b2a1-0f9e8d7c6b5a".

Definition yoga : request ClassData.t :=
  Request ∅ {| ClassData.name := Some "Yoga";
               ClassData.instructor := Some "Jane Doe";
               ClassData.date_time := Some "2025-06-08T10:00:00";
               ClassData.capacity := Some 1 |}.

Definition book (class_id user_name user_email : string) : request BookingData.t :=
  Request ∅ {| BookingData.class_id := Some class_id;
               BookingData.user_name := Some user_name;
               BookingData.user_email := Some user_email |}.

Definition yoga_class : ClassSchedule.t :=
  new_class (Env t0 t0 class_uuid) "Yoga" "Jane Doe" (datetime 2025 6 8 10 0) 1.

Definition alice : Booking.t :=
  new_booking (Env (t0 + 60) (t0 + 60) alice_uuid) class_uuid "Alice" "a@example.com".

(** The surroundings of one more request on the same morning. *)
Definition visitor : env := Env t0 t0 other_uuid.

(** After POST /api/classes. *)
Definition s1 : db := (create_class create_all (Env t0 t0 class_uuid) yoga).1.

(** After Alice's POST /api/book: the class is full. *)
Definition s2 : db :=
  (create_booking s1 (Env (t0 + 60) (t0 + 60) alice_uuid)
     (book class_uuid "Alice" "a@example.com")).1.

End Studio.

(** ** Notions used by the further properties *)

(** A class row that passed the checks of [create_class]. *)
Definition class_row_ok (c : ClassSchedule.t) : Prop :=
  ClassSchedule.name c ∈ allowed_classes ∧ 0 < ClassSchedule.capacity c.

(** A booking row that passed the checks of [create_booking]. *)
Definition booking_row_ok (s : db) (b : Booking.t) : Prop :=
  validate_email (Booking.user_email b) = true ∧
  truthy (strip (Booking.user_name b)) = true ∧
  Booking.class_id b ∈ ClassSchedule.id <$> class_schedule s.

(** The status of an answer. *)
Definition status (r : response) : Z := r.2.

(** The rules a booking request has to pass to be inserted. *)
Definition booking_admitted (s : db) (e : env)
    (class_id user_name user_email : string) : Prop :=
  validate_email user_email = true ∧
  truthy (strip user_name) = true ∧
  (∃ cls, get s class_id = Some cls ∧
          now e ≤ ClassSchedule.date_time cls ∧
          len_bookings s cls < ClassSchedule.capacity cls) ∧
  filter_by s class_id user_email = [] ∧
  uuid4 e ∉ (Booking.id <$> booking s).

(** The rules a creation request has to pass to be inserted; [dt] is its
    parsed start. *)
Definition class_admitted (s : db) (e : env) (name : string) (dt capacity : Z) : Prop :=
  name ∈ allowed_classes ∧
  now e ≤ dt ∧
  0 < capacity ∧
  uuid4 e ∉ (ClassSchedule.id <$> class_schedule s).

(** * Properties *)

(** ** The helpers and the concrete runtime on examples *)

Example validate_email_john : validate_email "john@example.com" = true.
Proof. reflexivity. Qed.

Example validate_email_plain : validate_email "invalid-email" = false.
Proof. reflexivity. Qed.

Example validate_email_no_tld : validate_email "a@b" = false.
Proof. reflexivity. Qed.

Example validate_email_empty : validate_email "" = false.
Proof. reflexivity. Qed.

Example strip_blank : strip "  " = "".
Proof. reflexivity. Qed.

Example strip_name : strip "  John Doe " = "John Doe".
Proof. reflexivity. Qed.

Example validate_class_type_pilates : validate_class_type "Pilates" = false.
Proof. reflexivity. Qed.

Example datetime_epoch : datetime 1970 1 1 0 0 = 0.
Proof. reflexivity. Qed.

Example datetime_seed : datetime 2025 6 8 10 0 = 1749376800.
Proof. reflexivity. Qed.

Example parse_docstring : Fixed.parse "2025-06-08T10:00:00" = Some (datetime 2025 6 8 10 0).
Proof. reflexivity. Qed.

Example parse_bad : Fixed.parse "8 June 2025" = None.
Proof. reflexivity. Qed.

Example iso_seed : Fixed.iso (datetime 2025 6 8 10 0) Fixed.kolkata = "2025-06-08T10:00:00+05:30".
Proof. reflexivity. Qed.

Example convert_utc :
  @convert_to_timezone Fixed.runtime (datetime 2025 6 8 10 0) "UTC" = "2025-06-08T04:30:00+00:00".
Proof. reflexivity. Qed.

Example validate_email_trailing_newline :
  validate_email ("john@example.com" +:+ String "010" "") = true.
Proof. reflexivity. Qed.

Example validate_email_space : validate_email "john doe@example.com" = false.
Proof. reflexivity. Qed.

(** ** The cases of [test_api.py] and of the seed script, on the concrete runtime *)

Section Tests.
#[local] Existing Instance Fixed.runtime.

(** test_create_class *)
Example test_create_class :
  (create_class create_all (Env Studio.t0 Studio.t0 Studio.class_uuid) Studio.yoga).2 =
  (JObj [("id", JStr Studio.class_uuid); ("name", JStr "Yoga");
         ("instructor", JStr "Jane Doe");
         ("date_time", JStr "2025-06-08T10:00:00+05:30"); ("capacity", JInt 1)], 201).
Proof. reflexivity. Qed.

(** test_create_class_invalid_type *)
Example test_create_class_invalid_type :
  (create_class create_all Studio.visitor
     (Request ∅ (ClassData.mk (Some "Pilates") (Some "Jane Doe")
                               (Some "2025-06-08T10:00:00") (Some 10)))).2
  = InvalidClassType.
Proof. reflexivity. Qed.

Example create_class_bad_date :
  (create_class create_all Studio.visitor
     (Request ∅ (ClassData.mk (Some "HIIT") (Some "Jane Doe")
                               (Some "8 June 2025") (Some 10)))).2
  = InvalidDateFormat.
Proof. reflexivity. Qed.

Example create_class_capacity_zero :
  (create_class create_all Studio.visitor
     (Request ∅ (ClassData.mk (Some "HIIT") (Some "Jane Doe")
                               (Some "2025-06-08T10:00:00") (Some 0)))).2
  = InvalidCapacity.
Proof. reflexivity. Qed.

(** test_get_classes *)
Example test_get_classes :
  (get_classes Studio.s1 Studio.visitor (Request ∅ ())).2 =
  (JArr [JObj [("id", JStr Studio.class_uuid); ("name", JStr "Yoga");
               ("instructor", JStr "Jane Doe");
               ("date_time", JStr "2025-06-08T10:00:00+05:30");
               ("capacity", JInt 1); ("available_slots", JInt 1)]], 200).
Proof. reflexivity. Qed.

(** A class that has started is not listed. *)
Example get_classes_after_start :
  (get_classes Studio.s1 (Env (datetime 2025 6 8 10 1) 0 "") (Request ∅ ())).2 =
  (JArr [], 200).
Proof. reflexivity. Qed.

(** test_create_booking *)
Example test_create_booking :
  create_booking Studio.s1 (Env (Studio.t0 + 60) (Studio.t0 + 60) Studio.alice_uuid)
    (Studio.book Studio.class_uuid "Alice" "a@example.com") =
  (Studio.s2,
   (JObj [("id", JStr Studio.alice_uuid); ("class_id", JStr Studio.class_uuid);
          ("user_name", JStr "Alice"); ("user_email", JStr "a@example.com");
          ("booking_time", JStr "2025-06-01T09:01:00+05:30")], 201)).
Proof. reflexivity. Qed.

(** test_create_booking_invalid_email *)
Example test_create_booking_invalid_email :
  (create_booking Studio.s1 Studio.visitor
     (Studio.book Studio.class_uuid "John Doe" "invalid-email")).2 = InvalidEmail.
Proof. reflexivity. Qed.

(** test_create_booking_past_class *)
Example test_create_booking_past_class :
  (create_booking Studio.s1 (Env (datetime 2025 6 9 10 0) 0 Studio.alice_uuid)
     (Studio.book Studio.class_uuid "John Doe" "john@example.com")).2 = PastClass.
Proof. reflexivity. Qed.

(** test_create_booking_overbooked *)
Example test_create_booking_overbooked :
  (create_booking Studio.s2 Studio.visitor
     (Studio.book Studio.class_uuid "John Doe" "john@example.com")).2 = ClassFull.
Proof. reflexivity. Qed.

(** With room for two, a second request of the same user is a duplicate. *)
Example create_booking_duplicate :
  let roomy :=
    {| class_schedule :=
         [new_class (Env Studio.t0 Studio.t0 Studio.class_uuid) "Yoga" "Jane Doe"
                    (datetime 2025 6 8 10 0) 2];
       booking := [Studio.alice] |} in
  (create_booking roomy Studio.visitor
     (Studio.book Studio.class_uuid "Alice" "a@example.com")).2 = AlreadyBooked.
Proof. reflexivity. Qed.

(** A class id that is not in the table: the 404 leaves as a 500. *)
Example create_booking_unknown_class :
  (create_booking Studio.s2 Studio.visitor
     (Studio.book Studio.other_uuid "John Doe" "john@example.com")).2 =
  (error "404 Not Found: The requested URL was not found on the server. If you entered the URL manually please check your spelling and try again.", 500).
Proof. reflexivity. Qed.

(** test_get_bookings *)
Example test_get_bookings :
  (get_bookings Studio.s2 (Request {["email" := "a@example.com"]} ())).2 =
  (JArr [JObj [("id", JStr Studio.alice_uuid); ("class_id", JStr Studio.class_uuid);
               ("class_name", JStr "Yoga");
               ("date_time", JStr "2025-06-08T10:00:00+05:30");
               ("user_name", JStr "Alice"); ("user_email", JStr "a@example.com");
               ("booking_time", JStr "2025-06-01T09:01:00+05:30")]], 200).
Proof. reflexivity. Qed.

Example get_bookings_bad_email :
  (get_bookings Studio.s2 (Request {["email" := "not-an-email"]} ())).2 =
  (error "Valid email parameter required", 400).
Proof. reflexivity. Qed.

Example get_bookings_no_email :
  (get_bookings Studio.s2 (Request ∅ ())).2 =
  (error "Valid email parameter required", 400).
Proof. reflexivity. Qed.

(** The seeded class takes a booking made before it starts. *)
Example seed_then_book :
  (create_booking (seed_data (Env 0 0 Studio.class_uuid))
     (Env Studio.t0 Studio.t0 Studio.alice_uuid)
     (Studio.book Studio.class_uuid "John Doe" "john@example.com")).2.2 = 201.
Proof. reflexivity. Qed.

End Tests.

(** ** What the two writing handlers do to the database *)

Section Effects.
Context `{Runtime}.

Lemma get_Some s ident cls :
  get s ident = Some cls → cls ∈ class_schedule s ∧ ClassSchedule.id cls = ident.
Proof.
  unfold get. intros Hhead.
  apply head_Some_elem_of, list_elem_of_filter in Hhead. tauto.
Qed.

Lemma get_None s ident :
  get s ident = None → ident ∉ (ClassSchedule.id <$> class_schedule s).
Proof.
  unfold get. rewrite head_None. intros Hnil Hin.
  apply list_elem_of_fmap in Hin as (c & -> & Hc).
  by apply (filter_nil_not_elem_of _ _ c) in Hnil.
Qed.

Lemma get_is_Some s ident :
  ident ∈ ClassSchedule.id <$> class_schedule s → is_Some (get s ident).
Proof.
  intros Hin. destruct (get s ident) eqn:Hget; [by eexists|].
  by apply get_None in Hget.
Qed.

(** [create_booking] leaves the database as it is, or appends one booking
    that has passed the capacity and the duplicate check. *)
Lemma create_booking_effect s e req :
  (create_booking s e req).1 = s ∨
  ∃ cls b,
    get s (Booking.class_id b) = Some cls ∧
    len_bookings s cls < ClassSchedule.capacity cls ∧
    filter_by s (Booking.class_id b) (Booking.user_email b) = [] ∧
    (create_booking s e req).1 =
      {| class_schedule := class_schedule s; booking := booking s ++ [b] |}.
Proof.
  unfold create_booking, create_booking_try.
  destruct (BookingData.class_id _) as [cid|]; [|by left].
  destruct (BookingData.user_name _) as [uname|]; [|by left].
  destruct (BookingData.user_email _) as [email|]; [|by left].
  destruct (negb (validate_email email)); [by left|].
  destruct (negb (truthy (strip uname))); [by left|].
  unfold get_or_404. destruct (get s cid) as [cls|] eqn:Hget; [|by left].
  cbn [mbind result_bind].
  destruct (ClassSchedule.date_time cls <? now e); [by left|].
  destruct (ClassSchedule.capacity cls <=? len_bookings s cls) eqn:Hcap; [by left|].
  destruct (head (filter_by s cid email)) eqn:Hdup; [by left|].
  unfold add_booking, add_row. case_bool_decide; [by left|].
  right. exists cls, (new_booking e cid uname email). cbn.
  split_and!; [done| lia | by apply head_None | done].
Qed.

(** [create_class] leaves the database as it is, or appends one class with a
    new id and a positive capacity. *)
Lemma create_class_effect s e req :
  (create_class s e req).1 = s ∨
  ∃ c,
    (ClassSchedule.id c ∉ (ClassSchedule.id <$> class_schedule s)) ∧
    0 < ClassSchedule.capacity c ∧
    (create_class s e req).1 =
      {| class_schedule := class_schedule s ++ [c]; booking := booking s |}.
Proof.
  unfold create_class, create_class_try.
  destruct (ClassData.name _) as [name|]; [|by left].
  destruct (ClassData.instructor _) as [instructor|]; [|by left].
  destruct (ClassData.date_time _) as [dts|]; [|by left].
  destruct (ClassData.capacity _) as [capacity|]; [|by left].
  destruct (negb (validate_class_type name)); [by left|].
  destruct (fromisoformat dts) as [dt|]; [|by left].
  cbn [mbind result_bind].
  destruct (dt <? now e); [by left|].
  destruct (capacity <=? 0) eqn:Hcap; [by left|].
  unfold add_class. case_bool_decide; [by left|].
  right. eexists. cbn. split_and!; [done | cbn; lia | done].
Qed.

Lemma get_classes_effect s e req : (get_classes s e req).1 = s.
Proof. done. Qed.

Lemma get_bookings_effect s req : (get_bookings s req).1 = s.
Proof.
  unfold get_bookings, get_bookings_try.
  destruct (args req !! "email") as [email|]; [|done].
  destruct (_ || _); [done|].
  by destruct (mapM _ _).
Qed.

End Effects.

(** ** The invariant of the reachable states *)

Section Invariant.
Context `{Runtime}.

Lemma primary_key_inj (l : list ClassSchedule.t) c1 c2 :
  NoDup (ClassSchedule.id <$> l) → c1 ∈ l → c2 ∈ l →
  ClassSchedule.id c1 = ClassSchedule.id c2 → c1 = c2.
Proof.
  induction l as [|c l IH]; intros Hnd H1 H2 Heq; [by apply elem_of_nil in H1|].
  rewrite fmap_cons in Hnd. apply NoDup_cons in Hnd as [Hc Hnd].
  apply elem_of_cons in H1 as [->|H1], H2 as [->|H2]; auto.
  - exfalso. apply Hc. rewrite Heq. by apply list_elem_of_fmap_2.
  - exfalso. apply Hc. rewrite <- Heq. by apply list_elem_of_fmap_2.
Qed.

Lemma filter_by_nil s class_id user_email b :
  filter_by s class_id user_email = [] → b ∈ booking s →
  booking_key b ≠ (class_id, user_email).
Proof.
  intros Hnil Hb Hkey. unfold booking_key in Hkey.
  pose proof (filter_nil_not_elem_of _ _ b Hnil) as Hnot.
  apply Hnot; [|done]. by inversion Hkey.
Qed.


Lemma invariant_create_all : invariant create_all.
Proof.
  split; cbn.
  - apply NoDup_nil_2.
  - intros b Hb. by apply elem_of_nil in Hb.
  - intros c Hc. by apply elem_of_nil in Hc.
  - apply NoDup_nil_2.
Qed.

Lemma invariant_seed_data e : invariant (seed_data e).
Proof.
  split; cbn.
  - apply NoDup_singleton.
  - intros b Hb. by apply elem_of_nil in Hb.
  - intros c Hc. apply list_elem_of_singleton in Hc as ->. by cbn.
  - apply NoDup_nil_2.
Qed.

Lemma invariant_create_booking s e req :
  invariant s → invariant (create_booking s e req).1.
Proof.
  intros [Hpk Hfk Hcap Hnd].
  destruct (create_booking_effect s e req)
    as [->|(cls & b & Hget & Hlt & Hdup & ->)]; [done|].
  apply get_Some in Hget as [Hcls Hid].
  split; cbn.
  - done.
  - intros b' [Hb'|Hb']%elem_of_app; cbn; [by apply Hfk|].
    apply list_elem_of_singleton in Hb' as ->.
    rewrite <- Hid. by apply list_elem_of_fmap_2.
  - intros c Hc. cbn in Hc.
    unfold len_bookings, bookings in *. cbn.
    rewrite filter_app, length_app, filter_singleton; [|exact []].
    case_decide as Hb; cbn.
    + assert (c = cls) as -> by (eapply primary_key_inj; eauto; congruence).
      lia.
    + specialize (Hcap c Hc). unfold len_bookings, bookings in Hcap. lia.
  - unfold no_duplicate_booking in *. cbn.
    rewrite fmap_app, NoDup_app. split_and!; [done| |apply NoDup_singleton].
    intros k (b' & -> & Hb')%list_elem_of_fmap Hk.
    apply list_elem_of_singleton in Hk.
    by eapply filter_by_nil.
Qed.

Lemma invariant_create_class s e req :
  invariant s → invariant (create_class s e req).1.
Proof.
  intros [Hpk Hfk Hcap Hnd].
  destruct (create_class_effect s e req) as [->|(c & Hfresh & Hpos & ->)]; [done|].
  split; cbn.
  - rewrite fmap_app, NoDup_app. split_and!; [done| |apply NoDup_singleton].
    intros i Hi Hi'. apply list_elem_of_singleton in Hi'. by subst.
  - intros b Hb. cbn in *. rewrite fmap_app, elem_of_app. left. by apply Hfk.
  - intros c' [Hc'|Hc']%elem_of_app.
    + by apply Hcap.
    + apply list_elem_of_singleton in Hc' as ->.
      unfold len_bookings, bookings. cbn.
      replace (filter _ (booking s)) with (@nil Booking.t); [cbn; lia|].
      symmetry. apply head_None.
      destruct (head _) as [b|] eqn:Hb; [|done].
      apply head_Some_elem_of, list_elem_of_filter in Hb as [Hb1 Hb2].
      exfalso. apply Hfresh. rewrite <- Hb1. by apply Hfk.
  - done.
Qed.

Lemma reachable_invariant s : reachable s → invariant s.
Proof.
  induction 1.
  - apply invariant_create_all.
  - apply invariant_seed_data.
  - by rewrite get_classes_effect.
  - by rewrite get_bookings_effect.
  - by apply invariant_create_class.
  - by apply invariant_create_booking.
Qed.

End Invariant.

(** ** The rule chains of the two writing handlers, rule by rule *)

Section Chains.
Context `{Runtime}.

(** [create_booking] on a body that has its three fields. *)
Lemma create_booking_present s e a class_id user_name user_email :
  create_booking s e
    (Request a (BookingData.mk (Some class_id) (Some user_name) (Some user_email))) =
  if negb (validate_email user_email) then (s, InvalidEmail)
  else if negb (truthy (strip user_name)) then (s, EmptyUserName)
  else match get s class_id with
       | None => (s, InternalError NotFound)
       | Some cls =>
           if ClassSchedule.date_time cls <? now e then (s, PastClass)
           else if ClassSchedule.capacity cls <=? len_bookings s cls then (s, ClassFull)
           else if bool_decide (filter_by s class_id user_email = []) then
             let b := new_booking e class_id user_name user_email in
             if bool_decide (uuid4 e ∈ Booking.id <$> booking s)
             then (s, InternalError IntegrityError)
             else ({| class_schedule := class_schedule s; booking := booking s ++ [b] |},
                   (booking_json b, 201))
           else (s, AlreadyBooked)
       end.
Proof.
  unfold create_booking, create_booking_try. cbn [get_json BookingData.class_id
    BookingData.user_name BookingData.user_email].
  destruct (negb (validate_email user_email)); [done|].
  destruct (negb (truthy (strip user_name))); [done|].
  unfold get_or_404. destruct (get s class_id) as [cls|]; [|done].
  cbn [mbind result_bind].
  destruct (ClassSchedule.date_time cls <? now e); [done|].
  destruct (ClassSchedule.capacity cls <=? len_bookings s cls); [done|].
  case_bool_decide as Hdup.
  - rewrite Hdup. cbn [head]. unfold add_booking, add_row.
    cbn [Booking.id]. by case_bool_decide.
  - destruct (filter_by s class_id user_email); [done|]. done.
Qed.

(** [create_booking] on a body that lacks a field. *)
Lemma create_booking_absent s e req :
  BookingData.class_id (get_json req) = None ∨
  BookingData.user_name (get_json req) = None ∨
  BookingData.user_email (get_json req) = None →
  create_booking s e req = (s, MissingField).
Proof.
  unfold create_booking, create_booking_try.
  intros [-> | [-> | ->]]; [done | |].
  - by destruct (BookingData.class_id (get_json req)).
  - by destruct (BookingData.class_id (get_json req)),
         (BookingData.user_name (get_json req)).
Qed.

(** [create_class] on a body that has its four fields. *)
Lemma create_class_present s e a name instructor date_time capacity :
  create_class s e
    (Request a (ClassData.mk (Some name) (Some instructor) (Some date_time) (Some capacity))) =
  if negb (validate_class_type name) then (s, InvalidClassType)
  else match fromisoformat date_time with
       | None => (s, InvalidDateFormat)
       | Some dt =>
           if dt <? now e then (s, PastSchedule)
           else if capacity <=? 0 then (s, InvalidCapacity)
           else
             let c := new_class e name instructor dt capacity in
             if bool_decide (uuid4 e ∈ ClassSchedule.id <$> class_schedule s)
             then (s, InternalError IntegrityError)
             else ({| class_schedule := class_schedule s ++ [c]; booking := booking s |},
                   (class_json c, 201))
       end.
Proof.
  unfold create_class, create_class_try. cbn [get_json ClassData.name
    ClassData.instructor ClassData.date_time ClassData.capacity].
  destruct (negb (validate_class_type name)); [done|].
  destruct (fromisoformat date_time) as [dt|]; [|done].
  cbn [mbind result_bind].
  destruct (dt <? now e); [done|].
  destruct (capacity <=? 0); [done|].
  unfold add_class. cbn [ClassSchedule.id]. by case_bool_decide.
Qed.

(** [create_class] on a body that lacks a field. *)
Lemma create_class_absent s e req :
  ClassData.name (get_json req) = None ∨
  ClassData.instructor (get_json req) = None ∨
  ClassData.date_time (get_json req) = None ∨
  ClassData.capacity (get_json req) = None →
  create_class s e req = (s, MissingField).
Proof.
  unfold create_class, create_class_try.
  intros [-> | [-> | [-> | ->]]]; [done | | |].
  - by destruct (ClassData.name (get_json req)).
  - by destruct (ClassData.name (get_json req)),
         (ClassData.instructor (get_json req)).
  - by destruct (ClassData.name (get_json req)),
         (ClassData.instructor (get_json req)),
         (ClassData.date_time (get_json req)).
Qed.

End Chains.

(** ** The studio scenario *)

Lemma studio_s1 :
  Studio.s1 = {| class_schedule := [Studio.yoga_class]; booking := [] |}.
Proof. reflexivity. Qed.

Lemma studio_s2 :
  Studio.s2 = {| class_schedule := [Studio.yoga_class]; booking := [Studio.alice] |}.
Proof. reflexivity. Qed.

Lemma studio_reachable : @reachable Fixed.runtime Studio.s2.
Proof.
  apply (@reachable_create_booking Fixed.runtime).
  apply (@reachable_create_class Fixed.runtime).
  apply reachable_create_all.
Defined.

(** ** Capacity *)

(** C1. In every reachable state of the database, no class has more bookings
    than its capacity, and both writing handlers, [create_class] and
    [create_booking], lead from such a state to a state where this holds
    again. *)
Theorem capacity_invariant `{Runtime} (s : db) :
  reachable s →
  capacity_ok s ∧
  (∀ e req, capacity_ok (create_class s e req).1) ∧
  (∀ e req, capacity_ok (create_booking s e req).1).
Proof.
  intros Hs. split_and!.
  - by apply reachable_invariant.
  - intros e req. by apply reachable_invariant, reachable_create_class.
  - intros e req. by apply reachable_invariant, reachable_create_booking.
Qed.

Lemma capacity_invariant_witness :
  @reachable Fixed.runtime Studio.s2 ∧
  (@capacity_ok Studio.s2 ∧
   (∀ e req, capacity_ok (@create_class Fixed.runtime Studio.s2 e req).1) ∧
   (∀ e req, capacity_ok (@create_booking Fixed.runtime Studio.s2 e req).1)).
Proof.
  split; [exact studio_reachable|].
  apply (@capacity_invariant Fixed.runtime Studio.s2). exact studio_reachable.
Defined.

(** ** Commit *)




(** ** Duplicates *)




(** ** Time *)



(** C5, as the code has it. [create_class] checks the class type, then the
    date format, then that the start is not before now, and the capacity
    last. So a request with an allowed name and a start in the past is
    answered PastSchedule whatever its capacity, and InvalidCapacity is the
    answer for a capacity of 0 or less only when the start is not in the
    past. *)
Theorem create_class_validation_order `{Runtime} (s : db) (e : env)
    (a : gmap string string) (name instructor date_time : string) (capacity : Z) :
  let req := Request a (ClassData.mk (Some name) (Some instructor)
                                       (Some date_time) (Some capacity)) in
  (validate_class_type name = false →
   create_class s e req = (s, InvalidClassType)) ∧
  (validate_class_type name = true → fromisoformat date_time = None →
   create_class s e req = (s, InvalidDateFormat)) ∧
  (∀ dt, validate_class_type name = true → fromisoformat date_time = Some dt →
         dt < now e →
         create_class s e req = (s, PastSchedule)) ∧
  (∀ dt, validate_class_type name = true → fromisoformat date_time = Some dt →
         now e ≤ dt → capacity ≤ 0 →
         create_class s e req = (s, InvalidCapacity)).
Proof.
  intros req. subst req. rewrite create_class_present. split_and!.
  - by intros ->.
  - by intros -> ->.
  - intros dt -> -> Hpast. cbn [negb].
    by replace (dt <? now e) with true by lia.
  - intros dt -> -> Hnow Hcap. cbn [negb].
    replace (dt <? now e) with false by lia.
    by replace (capacity <=? 0) with true by lia.
Qed.

Lemma create_class_validation_order_witness :
  let req := Request ∅ (ClassData.mk (Some "Yoga") (Some "Jane Doe")
                                       (Some "2020-01-01T10:00:00") (Some 0)) in
  validate_class_type "Yoga" = true ∧
  Fixed.parse "2020-01-01T10:00:00" = Some (datetime 2020 1 1 10 0) ∧
  datetime 2020 1 1 10 0 < Studio.t0 ∧
  @create_class Fixed.runtime create_all (Env Studio.t0 Studio.t0 Studio.class_uuid) req
    = (create_all, PastSchedule).
Proof.
  intros req.
  assert (validate_class_type "Yoga" = true) as Hname by reflexivity.
  assert (@fromisoformat Fixed.runtime "2020-01-01T10:00:00"
          = Some (datetime 2020 1 1 10 0)) as Hparse by reflexivity.
  assert (datetime 2020 1 1 10 0 < Studio.t0) as Hpast by reflexivity.
  split_and!; try assumption.
  exact (proj1 (proj2 (proj2
    (@create_class_validation_order Fixed.runtime create_all
       (Env Studio.t0 Studio.t0 Studio.class_uuid) ∅ "Yoga" "Jane Doe"
       "2020-01-01T10:00:00" 0))) _ Hname Hparse Hpast).
Defined.

(** C5, as the specification states it, fails: an allowed name, capacity 0 and a
    start in the past are answered PastSchedule. *)
Lemma create_class_validation_order_counterexample :
  let e := Env Studio.t0 Studio.t0 Studio.class_uuid in
  let req := Request ∅ (ClassData.mk (Some "Yoga") (Some "Jane Doe")
                                       (Some "2020-01-01T10:00:00") (Some 0)) in
  validate_class_type "Yoga" = true ∧
  0 ≤ 0 ∧
  @fromisoformat Fixed.runtime "2020-01-01T10:00:00" = Some (datetime 2020 1 1 10 0) ∧
  datetime 2020 1 1 10 0 < now e ∧
  (@create_class Fixed.runtime create_all e req).2 = PastSchedule ∧
  (@create_class Fixed.runtime create_all e req).2 ≠ InvalidCapacity.
Proof.
  split_and!; try reflexivity.
  vm_compute. discriminate.
Qed.




(** ** Fields *)




(** ** Instructor *)




(** ** Display timezone *)

Section Display.
Context `{Runtime}.

Lemma same_but_timezone_lookup a1 a2 k :
  same_but_timezone a1 a2 → k ≠ "timezone" → a1 !! k = a2 !! k.
Proof.
  intros Hsame Hk.
  rewrite <- (lookup_delete_ne a1 "timezone" k), <- (lookup_delete_ne a2 "timezone" k)
    by done.
  by rewrite Hsame.
Qed.

(** Without its date_time, an entry of [get_classes] does not depend on the
    conversion. *)
Lemma class_entry_drop render1 render2 s cls :
  drop_key "date_time" (class_entry render1 s cls) =
  drop_key "date_time" (class_entry render2 s cls).
Proof. reflexivity. Qed.

Lemma class_entry_ext render1 render2 s cls :
  (∀ dt, render1 dt = render2 dt) → class_entry render1 s cls = class_entry render2 s cls.
Proof. intros Hext. unfold class_entry. by rewrite Hext. Qed.

(** The entries of [get_bookings] under two conversions: both raise, or both
    return, and then they agree apart from date_time. *)
Lemma booking_entry_drop render1 render2 s b :
  match booking_entry render1 s b, booking_entry render2 s b with
  | Return j1, Return j2 => drop_key "date_time" j1 = drop_key "date_time" j2
  | Raise e1, Raise e2 => e1 = e2
  | _, _ => False
  end.
Proof. unfold booking_entry. by destruct (get s (Booking.class_id b)). Qed.

Lemma booking_entry_ext render1 render2 s b :
  (∀ dt, render1 dt = render2 dt) → booking_entry render1 s b = booking_entry render2 s b.
Proof.
  intros Hext. unfold booking_entry.
  destruct (get s (Booking.class_id b)); [|done]. by rewrite Hext.
Qed.

Lemma booking_entries_drop render1 render2 s (l : list Booking.t) :
  match mapM (M:=result) (booking_entry render1 s) l,
        mapM (M:=result) (booking_entry render2 s) l with
  | Return k1, Return k2 =>
      drop_key "date_time" <$> k1 = drop_key "date_time" <$> k2
  | Raise e1, Raise e2 => e1 = e2
  | _, _ => False
  end.
Proof.
  induction l as [|b l IH]; [done|].
  cbn [mapM]. pose proof (booking_entry_drop render1 render2 s b) as Hb.
  destruct (booking_entry render1 s b) as [j1|e1],
           (booking_entry render2 s b) as [j2|e2]; try done.
  cbn [mbind result_bind].
  destruct (mapM (booking_entry render1 s) l) as [k1|e1],
           (mapM (booking_entry render2 s) l) as [k2|e2]; try done.
  cbn. by rewrite Hb, IH.
Qed.

Lemma booking_entries_ext render1 render2 s (l : list Booking.t) :
  (∀ dt, render1 dt = render2 dt) →
  mapM (M:=result) (booking_entry render1 s) l = mapM (booking_entry render2 s) l.
Proof.
  intros Hext. induction l as [|b l IH]; [done|].
  cbn [mapM]. by rewrite IH, (booking_entry_ext render1 render2).
Qed.

(** With every booking's class in the table, no entry raises. *)
Lemma booking_entries_return render s (l : list Booking.t) :
  (∀ b, b ∈ l → Booking.class_id b ∈ ClassSchedule.id <$> class_schedule s) →
  ∃ k, mapM (M:=result) (booking_entry render s) l = Return k.
Proof.
  induction l as [|b l IH]; intros Hfk; [by eexists|].
  destruct IH as [k Hk]; [intros b' Hb'; apply Hfk; by right|].
  destruct (get_is_Some s (Booking.class_id b)) as [c Hc]; [apply Hfk; by left|].
  cbn [mapM]. rewrite Hk. unfold booking_entry. rewrite Hc. by eexists.
Qed.

Lemma validate_email_truthy email : validate_email email = true → truthy email = true.
Proof. by destruct email. Qed.

End Display.

(** C8. Two requests that differ only in the timezone query parameter are
    treated alike: [create_booking] and [create_class] give the same database
    and the same answer, and [get_classes] and [get_bookings] leave the same
    database and give answers that are equal once date_time is removed from
    each element, so the same classes with the same available_slots. *)
Theorem display_timezone_noninterference `{Runtime} (s : db) (e : env)
    (a1 a2 : gmap string string) :
  same_but_timezone a1 a2 →
  (∀ data, create_booking s e (Request a1 data) = create_booking s e (Request a2 data)) ∧
  (∀ data, create_class s e (Request a1 data) = create_class s e (Request a2 data)) ∧
  ((get_classes s e (Request a1 ())).1 = (get_classes s e (Request a2 ())).1 ∧
   without_date_time (get_classes s e (Request a1 ())).2 =
   without_date_time (get_classes s e (Request a2 ())).2) ∧
  ((get_bookings s (Request a1 ())).1 = (get_bookings s (Request a2 ())).1 ∧
   without_date_time (get_bookings s (Request a1 ())).2 =
   without_date_time (get_bookings s (Request a2 ())).2).
Proof.
  intros Hsame. split_and!; try done.
  - unfold get_classes. cbn [args snd without_date_time].
    f_equal. f_equal. rewrite <- !list_fmap_compose.
    apply list_fmap_ext. intros i cls _. apply class_entry_drop.
  - by rewrite !get_bookings_effect.
  - unfold get_bookings, get_bookings_try. cbn [args].
    rewrite <- (same_but_timezone_lookup a1 a2 "email") by done.
    destruct (a1 !! "email") as [email|]; [|done].
    destruct (negb (truthy email) || negb (validate_email email)); [done|].
    pose proof (booking_entries_drop
                  (λ dt, convert_to_timezone dt (default "Asia/Kolkata" (a1 !! "timezone")))
                  (λ dt, convert_to_timezone dt (default "Asia/Kolkata" (a2 !! "timezone")))
                  s (filter_by_email s email)) as Hl.
    destruct (mapM _ _) as [k1|e1], (mapM _ _) as [k2|e2]; try done.
    + cbn. by rewrite Hl.
    + cbn. by rewrite Hl.
Qed.

Lemma display_timezone_noninterference_witness :
  let e := Env Studio.t0 Studio.t0 Studio.bob_uuid in
  let a1 : gmap string string :=
    {["email" := "a@example.com"; "timezone" := "Asia/Tokyo"]} in
  let a2 : gmap string string := {["email" := "a@example.com"]} in
  same_but_timezone a1 a2 ∧
  (∀ data, @create_booking Fixed.runtime Studio.s2 e (Request a1 data)
           = @create_booking Fixed.runtime Studio.s2 e (Request a2 data)) ∧
  (∀ data, @create_class Fixed.runtime Studio.s2 e (Request a1 data)
           = @create_class Fixed.runtime Studio.s2 e (Request a2 data)) ∧
  without_date_time (@get_classes Fixed.runtime Studio.s2 e (Request a1 ())).2 =
  without_date_time (@get_classes Fixed.runtime Studio.s2 e (Request a2 ())).2 ∧
  without_date_time (@get_bookings Fixed.runtime Studio.s2 (Request a1 ())).2 =
  without_date_time (@get_bookings Fixed.runtime Studio.s2 (Request a2 ())).2.
Proof.
  intros e a1 a2.
  assert (same_but_timezone a1 a2) as Hsame by (vm_compute; reflexivity).
  pose proof (@display_timezone_noninterference Fixed.runtime Studio.s2 e a1 a2 Hsame)
    as (Hbook & Hclass & [_ Hclasses] & [_ Hbookings]).
  split_and!; assumption.
Defined.

(** The display timezone does change the date_time text. *)
Example get_classes_tokyo :
  field_of "date_time" <$>
    match (@get_classes Fixed.runtime Studio.s2
             (Env Studio.t0 Studio.t0 Studio.bob_uuid)
             (Request {["timezone" := "Asia/Tokyo"]} ())).2.1 with
    | JArr l => l
    | _ => []
    end
  = [Some (JStr "2025-06-08T13:30:00+09:00")].
Proof. reflexivity. Qed.

(** C10. A timezone name that [ZoneInfo] does not accept makes
    [convert_to_timezone] return the ISO text of the stored datetime as it
    is, and the listings still answer 200: [get_classes] lists the upcoming
    classes with unconverted times, and so does [get_bookings] for a valid
    email in every reachable state. *)
Theorem invalid_timezone_falls_back `{Runtime} (tz_name : string) :
  ZoneInfo tz_name = None →
  (∀ dt, convert_to_timezone dt tz_name = isoformat dt) ∧
  (∀ s e req,
     args req !! "timezone" = Some tz_name →
     get_classes s e req = (s, (JArr (class_entry isoformat s <$> upcoming s e), 200))) ∧
  (∀ s req email,
     reachable s →
     args req !! "timezone" = Some tz_name →
     args req !! "email" = Some email →
     validate_email email = true →
     ∃ result,
       mapM (booking_entry isoformat s) (filter_by_email s email) = Return result ∧
       get_bookings s req = (s, (JArr result, 200))).
Proof.
  intros Hzone.
  assert (∀ dt, convert_to_timezone dt tz_name = isoformat dt) as Hconv
    by (intros dt; unfold convert_to_timezone; by rewrite Hzone).
  split_and!.
  - done.
  - intros s e req Htz. unfold get_classes. rewrite Htz. cbn [default].
    do 3 f_equal. apply list_fmap_ext. intros i cls _.
    by apply class_entry_ext.
  - intros s req email Hs Htz Hemail Hvalid.
    destruct (booking_entries_return isoformat s (filter_by_email s email))
      as [result Hresult].
    { intros b [_ Hb]%list_elem_of_filter.
      by apply (inv_foreign_key s (reachable_invariant s Hs)). }
    exists result. split; [done|].
    unfold get_bookings, get_bookings_try.
    rewrite Hemail, Htz, Hvalid, (validate_email_truthy email Hvalid).
    cbn [negb orb default].
    rewrite (booking_entries_ext _ isoformat) by done.
    by rewrite Hresult.
Qed.

Lemma invalid_timezone_falls_back_witness :
  let e := Env Studio.t0 Studio.t0 Studio.bob_uuid in
  let a : gmap string string :=
    {["email" := "a@example.com"; "timezone" := "Mars/Olympus_Mons"]} in
  @ZoneInfo Fixed.runtime "Mars/Olympus_Mons" = None ∧
  @convert_to_timezone Fixed.runtime (datetime 2025 6 8 10 0) "Mars/Olympus_Mons"
    = "2025-06-08T10:00:00+05:30" ∧
  (a !! "timezone" = Some "Mars/Olympus_Mons" ∧
   (@get_classes Fixed.runtime Studio.s2 e (Request a ())).2.2 = 200) ∧
  (@reachable Fixed.runtime Studio.s2 ∧
   a !! "email" = Some "a@example.com" ∧
   validate_email "a@example.com" = true ∧
   (@get_bookings Fixed.runtime Studio.s2 (Request a ())).2.2 = 200).
Proof.
  intros e a.
  assert (@ZoneInfo Fixed.runtime "Mars/Olympus_Mons" = None) as Hzone by reflexivity.
  assert (a !! "timezone" = Some "Mars/Olympus_Mons") as Htz by reflexivity.
  assert (a !! "email" = Some "a@example.com") as Hemail by reflexivity.
  assert (validate_email "a@example.com" = true) as Hvalid by reflexivity.
  pose proof (@invalid_timezone_falls_back Fixed.runtime "Mars/Olympus_Mons" Hzone)
    as (Hconv & Hclasses & Hbookings).
  split_and!; try assumption.
  - exact (Hconv (datetime 2025 6 8 10 0)).
  - by rewrite (Hclasses Studio.s2 e (Request a ()) Htz).
  - exact studio_reachable.
  - destruct (Hbookings Studio.s2 (Request a ()) "a@example.com"
                studio_reachable Htz Hemail Hvalid) as (result & _ & ->).
    reflexivity.
Defined.


(** * Further properties of the code *)

(** ** Admission: when a request is inserted, and what a refused one does *)

Section Admission.
Context `{Runtime}.

(** The answer of [create_booking] on a body with its three fields: the
    request is admitted and inserted, or the database stays and the status
    is 400 or 500. *)
Lemma create_booking_cases s e a class_id user_name user_email :
  let r := create_booking s e
             (Request a (BookingData.mk (Some class_id) (Some user_name)
                                          (Some user_email))) in
  let b := new_booking e class_id user_name user_email in
  (booking_admitted s e class_id user_name user_email ∧
   r = ({| class_schedule := class_schedule s; booking := booking s ++ [b] |},
        (booking_json b, 201))) ∨
  (¬ booking_admitted s e class_id user_name user_email ∧
   r.1 = s ∧ (status r.2 = 400 ∨ status r.2 = 500)).
Proof.
  intros r b. subst r. unfold booking_admitted.
  rewrite create_booking_present.
  destruct (validate_email user_email); cbn [negb];
    [|right; split_and!; [intros (? & _); done | done | by left]].
  destruct (truthy (strip user_name)); cbn [negb];
    [|right; split_and!; [intros (_ & ? & _); done | done | by left]].
  destruct (get s class_id) as [cls|];
    [|right; split_and!; [intros (_ & _ & (? & ? & _) & _); done | done | by right]].
  destruct (ClassSchedule.date_time cls <? now e) eqn:Hpast;
    [right; split_and!; [|done|by left];
     intros (_ & _ & (? & [= <-] & ? & _) & _); lia|].
  destruct (ClassSchedule.capacity cls <=? len_bookings s cls) eqn:Hfull;
    [right; split_and!; [|done|by left];
     intros (_ & _ & (? & [= <-] & _ & ?) & _); lia|].
  case_bool_decide as Hdup;
    [|right; split_and!; [intros (_ & _ & _ & ? & _); done | done | by left]].
  case_bool_decide as Hnew;
    [right; split_and!; [intros (_ & _ & _ & _ & ?); done | done | by right]|].
  left. split; [|done]. split_and!; try done. exists cls. split_and!; [done|lia|lia].
Qed.

(** The same for [create_class] on a body with its four fields. *)
Lemma create_class_cases s e a name instructor date_time capacity :
  let r := create_class s e
             (Request a (ClassData.mk (Some name) (Some instructor)
                                       (Some date_time) (Some capacity))) in
  (∃ dt, fromisoformat date_time = Some dt ∧
         class_admitted s e name dt capacity ∧
         let c := new_class e name instructor dt capacity in
         r = ({| class_schedule := class_schedule s ++ [c]; booking := booking s |},
              (class_json c, 201))) ∨
  ((∀ dt, fromisoformat date_time = Some dt → ¬ class_admitted s e name dt capacity) ∧
   r.1 = s ∧ (status r.2 = 400 ∨ status r.2 = 500)).
Proof.
  intros r. subst r. unfold class_admitted.
  rewrite create_class_present. unfold validate_class_type.
  case_bool_decide as Hname; cbn [negb];
    [|right; split_and!; [intros dt _ (? & _); done | done | by left]].
  destruct (fromisoformat date_time) as [dt|];
    [|right; split_and!; [intros dt [=] | done | by left]].
  destruct (dt <? now e) eqn:Hpast;
    [right; split_and!; [|done|by left]; intros ? [= <-] (_ & ? & _); lia|].
  destruct (capacity <=? 0) eqn:Hcap;
    [right; split_and!; [|done|by left]; intros ? [= <-] (_ & _ & ? & _); lia|].
  case_bool_decide as Hnew;
    [right; split_and!; [|done|by right]; intros ? [= <-] (_ & _ & _ & ?); done|].
  left. exists dt. split_and!; try done; lia.
Qed.

(** One request to [create_booking], whatever its body. *)
Lemma create_booking_step s e req :
  let r := create_booking s e req in
  (r.1 = s ∧ (status r.2 = 400 ∨ status r.2 = 500)) ∨
  ∃ class_id user_name user_email,
    booking_admitted s e class_id user_name user_email ∧
    r = ({| class_schedule := class_schedule s;
            booking := booking s ++ [new_booking e class_id user_name user_email] |},
         (booking_json (new_booking e class_id user_name user_email), 201)).
Proof.
  destruct req as [a [[class_id|] [user_name|] [user_email|]]]; cbn zeta.
  2-8: left; rewrite create_booking_absent by (cbn; tauto); split; [done|by left].
  destruct (create_booking_cases s e a class_id user_name user_email)
    as [[Hadm Hr]|(_ & Hs & Hst)]; [right; eauto|by left].
Qed.

(** One request to [create_class], whatever its body. *)
Lemma create_class_step s e req :
  let r := create_class s e req in
  (r.1 = s ∧ (status r.2 = 400 ∨ status r.2 = 500)) ∨
  ∃ name instructor dt capacity,
    class_admitted s e name dt capacity ∧
    r = ({| class_schedule := class_schedule s ++ [new_class e name instructor dt capacity];
            booking := booking s |},
         (class_json (new_class e name instructor dt capacity), 201)).
Proof.
  destruct req as [a [[name|] [instructor|] [date_time|] [capacity|]]]; cbn zeta.
  2-16: left; rewrite create_class_absent by (cbn; tauto); split; [done|by left].
  destruct (create_class_cases s e a name instructor date_time capacity)
    as [(dt & _ & Hadm & Hr)|(_ & Hs & Hst)]; [right|by left].
  by exists name, instructor, dt, capacity.
Qed.

End Admission.





(** X3. A request that is not answered 201 changes nothing: [create_booking]
    and [create_class] leave the database as it was whenever they refuse, and
    the two listing handlers never write. *)
Theorem refused_changes_nothing `{Runtime} (s : db) (e : env) :
  (∀ req, status (create_booking s e req).2 ≠ 201 → (create_booking s e req).1 = s) ∧
  (∀ req, status (create_class s e req).2 ≠ 201 → (create_class s e req).1 = s) ∧
  (∀ req, (get_classes s e req).1 = s) ∧
  (∀ req, (get_bookings s req).1 = s).
Proof.
  split_and!.
  - intros req Hne.
    destruct (create_booking_step s e req) as [[Hs _]|(? & ? & ? & _ & Hr)]; [done|].
    rewrite Hr in Hne. by cbn in Hne.
  - intros req Hne.
    destruct (create_class_step s e req) as [[Hs _]|(? & ? & ? & ? & _ & Hr)]; [done|].
    rewrite Hr in Hne. by cbn in Hne.
  - apply get_classes_effect.
  - apply get_bookings_effect.
Qed.

Lemma refused_changes_nothing_witness :
  let r := @create_booking Fixed.runtime Studio.s2 Studio.visitor
             (Studio.book Studio.class_uuid "Bob" "b@example.com") in
  status r.2 ≠ 201 ∧ r.1 = Studio.s2.
Proof.
  intros r.
  assert (status r.2 ≠ 201) as Hne by (vm_compute; discriminate).
  split; [done|].
  exact (proj1 (@refused_changes_nothing Fixed.runtime Studio.s2 Studio.visitor) _ Hne).
Defined.

(** X4. The statuses the handlers answer: 201, 400 or 500 for the two
    writing handlers, always 200 for [get_classes], and 200, 400 or 500 for
    [get_bookings]. No handler answers 404: the 404 that [get_or_404] raises
    for an unknown class is caught in [create_booking] and answered 500. *)
Theorem handler_statuses `{Runtime} (s : db) (e : env) :
  (∀ req, status (create_booking s e req).2 ∈ [201; 400; 500]) ∧
  (∀ req, status (create_class s e req).2 ∈ [201; 400; 500]) ∧
  (∀ req, status (get_classes s e req).2 = 200) ∧
  (∀ req, status (get_bookings s req).2 ∈ [200; 400; 500]) ∧
  (∀ a class_id user_name user_email,
     validate_email user_email = true →
     truthy (strip user_name) = true →
     get s class_id = None →
     status (create_booking s e
               (Request a (BookingData.mk (Some class_id) (Some user_name)
                                            (Some user_email)))).2 = 500).
Proof.
  split_and!.
  - intros req.
    destruct (create_booking_step s e req) as [[_ [->| ->]]|(? & ? & ? & _ & ->)];
      cbn; set_solver.
  - intros req.
    destruct (create_class_step s e req) as [[_ [->| ->]]|(? & ? & ? & ? & _ & ->)];
      cbn; set_solver.
  - done.
  - intros req. unfold get_bookings, get_bookings_try.
    destruct (args req !! "email") as [email|]; [|cbn; set_solver].
    destruct (_ || _); [cbn; set_solver|].
    destruct (mapM _ _); cbn; set_solver.
  - intros a class_id user_name user_email Hemail Hname Hget.
    rewrite create_booking_present, Hemail, Hname, Hget. done.
Qed.

Lemma handler_statuses_witness :
  validate_email "john@example.com" = true ∧
  truthy (strip "John Doe") = true ∧
  get Studio.s2 Studio.other_uuid = None ∧
  status (@create_booking Fixed.runtime Studio.s2 Studio.visitor
            (Studio.book Studio.other_uuid "John Doe" "john@example.com")).2 = 500.
Proof.
  assert (validate_email "john@example.com" = true) as Hemail by reflexivity.
  assert (truthy (strip "John Doe") = true) as Hname by reflexivity.
  assert (get Studio.s2 Studio.other_uuid = None) as Hget by reflexivity.
  split_and!; try assumption.
  exact (proj2 (proj2 (proj2 (proj2
    (@handler_statuses Fixed.runtime Studio.s2 Studio.visitor)))) ∅
    Studio.other_uuid "John Doe" "john@example.com" Hemail Hname Hget).
Defined.

(** ** What every stored row has passed *)

Section Rows.
Context `{Runtime}.

Lemma booking_row_ok_grow s s' b :
  class_schedule s `prefix_of` class_schedule s' →
  booking_row_ok s b → booking_row_ok s' b.
Proof.
  intros [k Hk] (Hemail & Hname & Hfk). split_and!; [done|done|].
  rewrite Hk, fmap_app. apply elem_of_app. by left.
Qed.

Lemma rows_ok_step_booking s e req :
  (∀ b, b ∈ booking s → booking_row_ok s b) →
  NoDup (Booking.id <$> booking s) →
  (∀ b, b ∈ booking (create_booking s e req).1 →
        booking_row_ok (create_booking s e req).1 b) ∧
  NoDup (Booking.id <$> booking (create_booking s e req).1).
Proof.
  intros Hrows Hnd.
  destruct (create_booking_step s e req)
    as [[-> _]|(cid & un & em & Hadm & ->)]; [done|].
  destruct Hadm as (Hemail & Hname & (cls & Hget & _) & _ & Hnew).
  cbn [fst booking class_schedule]. split.
  - intros b [Hb| ->%list_elem_of_singleton]%elem_of_app.
    + destruct (Hrows b Hb) as (? & ? & ?). by split_and!.
    + split_and!; [done|done|]. cbn.
      apply get_Some in Hget as [Hcls <-]. by apply list_elem_of_fmap_2.
  - rewrite fmap_app, NoDup_app. split_and!; [done| |apply NoDup_singleton].
    intros i Hi ->%list_elem_of_singleton. done.
Qed.

Lemma rows_ok_step_class s e req :
  (∀ c, c ∈ class_schedule s → class_row_ok c) →
  ∀ c, c ∈ class_schedule (create_class s e req).1 → class_row_ok c.
Proof.
  intros Hrows.
  destruct (create_class_step s e req)
    as [[-> _]|(name & instr & dt & cap & Hadm & ->)]; [done|].
  destruct Hadm as (Hname & _ & Hcap & _).
  cbn [fst class_schedule].
  intros c [Hc| ->%list_elem_of_singleton]%elem_of_app; [by apply Hrows|].
  by split.
Qed.

Lemma create_booking_classes s e req :
  class_schedule (create_booking s e req).1 = class_schedule s.
Proof.
  by destruct (create_booking_step s e req) as [[-> _]|(? & ? & ? & _ & ->)].
Qed.

Lemma create_class_bookings s e req :
  booking (create_class s e req).1 = booking s.
Proof.
  by destruct (create_class_step s e req) as [[-> _]|(? & ? & ? & ? & _ & ->)].
Qed.

Lemma create_class_classes s e req :
  class_schedule s `prefix_of` class_schedule (create_class s e req).1.
Proof.
  destruct (create_class_step s e req) as [[-> _]|(? & ? & ? & ? & _ & ->)]; [done|].
  by eexists.
Qed.

Lemma reachable_rows s :
  reachable s →
  (∀ c, c ∈ class_schedule s → class_row_ok c) ∧
  (∀ b, b ∈ booking s → booking_row_ok s b) ∧
  NoDup (Booking.id <$> booking s).
Proof.
  induction 1 as [|e|s e req _ IH|s req _ IH|s e req _ IH|s e req _ IH].
  - split_and!; [by intros ? ?%elem_of_nil..|apply NoDup_nil_2].
  - split_and!; [|by intros ? ?%elem_of_nil|apply NoDup_nil_2].
    intros c ->%list_elem_of_singleton. split; cbn; [set_solver|lia].
  - done.
  - by rewrite get_bookings_effect.
  - destruct IH as (Hc & Hb & Hnd). split_and!.
    + by apply rows_ok_step_class.
    + rewrite create_class_bookings. intros b Hin.
      eapply booking_row_ok_grow; [apply create_class_classes|by apply Hb].
    + by rewrite create_class_bookings.
  - destruct IH as (Hc & Hb & Hnd).
    destruct (rows_ok_step_booking s e req Hb Hnd) as [Hb' Hnd'].
    split_and!; [|done|done].
    by rewrite create_booking_classes.
Qed.

End Rows.

(** X5. Every row of a reachable database has passed the checks of its
    handler: a class has an allowed name and a positive capacity; a booking
    has a valid email, a name that [strip] does not empty and the id of a
    stored class; and ids are unique in each table. *)
Theorem stored_rows_valid `{Runtime} (s : db) :
  reachable s →
  (∀ c, c ∈ class_schedule s → class_row_ok c) ∧
  (∀ b, b ∈ booking s → booking_row_ok s b) ∧
  NoDup (ClassSchedule.id <$> class_schedule s) ∧
  NoDup (Booking.id <$> booking s).
Proof.
  intros Hs. destruct (reachable_rows s Hs) as (Hc & Hb & Hnd).
  split_and!; try done. by apply reachable_invariant.
Qed.

Lemma stored_rows_valid_witness :
  @reachable Fixed.runtime Studio.s2 ∧
  class_row_ok Studio.yoga_class ∧
  booking_row_ok Studio.s2 Studio.alice.
Proof.
  destruct (@stored_rows_valid Fixed.runtime Studio.s2 studio_reachable)
    as (Hc & Hb & _).
  split_and!; [exact studio_reachable| |].
  - apply Hc. rewrite studio_s2. apply list_elem_of_here.
  - apply Hb. rewrite studio_s2. apply list_elem_of_here.
Defined.

(** ** One booking after another *)



(** ** The two listings *)

Section Listings.
Context `{Runtime}.


Lemma mapM_Return {A B} (f : A → result B) (l : list A) (k : list B) :
  mapM f l = Return k → Forall2 (λ x y, f x = Return y) l k.
Proof.
  revert k. induction l as [|x l IH]; intros k; cbn [mapM].
  - intros [= <-]. constructor.
  - destruct (f x) as [y|ex] eqn:Hx; cbn [mbind result_bind]; [|done].
    destruct (mapM f l) as [k'|ex]; cbn [mbind result_bind]; [|done].
    intros [= <-]. constructor; [done|by apply IH].
Qed.

Lemma booking_entry_user_email render s b j :
  booking_entry render s b = Return j →
  field_of "user_email" j = Some (JStr (Booking.user_email b)) ∧
  field_of "id" j = Some (JStr (Booking.id b)).
Proof.
  unfold booking_entry. destruct (get s (Booking.class_id b)); [|done].
  by intros [= <-].
Qed.

End Listings.



(** X8. In a reachable database [get_bookings] with a valid email answers
    200 with one entry for each booking stored under exactly that email, in
    the order of the table, and with no entry of any other email. *)
Theorem get_bookings_lists_own `{Runtime} (s : db) (req : request unit) (email : string) :
  reachable s →
  args req !! "email" = Some email →
  validate_email email = true →
  ∃ l, (get_bookings s req).2 = (JArr l, 200) ∧
       Forall2 (λ b j, field_of "id" j = Some (JStr (Booking.id b)))
               (filter_by_email s email) l ∧
       ∀ j, j ∈ l → field_of "user_email" j = Some (JStr email).
Proof.
  intros Hs Hemail Hvalid.
  set (render := λ dt, convert_to_timezone dt
                         (default "Asia/Kolkata" (args req !! "timezone"))).
  destruct (booking_entries_return render s (filter_by_email s email)) as [l Hl].
  { intros b [_ Hb]%list_elem_of_filter.
    by apply (inv_foreign_key s (reachable_invariant s Hs)). }
  exists l. split_and!.
  - unfold get_bookings, get_bookings_try.
    rewrite Hemail, Hvalid, (validate_email_truthy email Hvalid). cbn [negb orb].
    fold render. by rewrite Hl.
  - apply mapM_Return in Hl.
    eapply Forall2_impl; [exact Hl|].
    intros b j Hj. by apply booking_entry_user_email in Hj as [_ ?].
  - apply mapM_Return in Hl. intros j Hj.
    apply list_elem_of_lookup_1 in Hj as [i Hi].
    destruct (Forall2_lookup_r _ _ _ _ _ Hl Hi) as (b & Hb & Hbj).
    apply booking_entry_user_email in Hbj as [-> _].
    apply list_elem_of_lookup_2, list_elem_of_filter in Hb as [-> _]. done.
Qed.

Lemma get_bookings_lists_own_witness :
  let req : request unit := Request {["email" := "a@example.com"]} () in
  @reachable Fixed.runtime Studio.s2 ∧
  args req !! "email" = Some "a@example.com" ∧
  validate_email "a@example.com" = true ∧
  ∃ l, (@get_bookings Fixed.runtime Studio.s2 req).2 = (JArr l, 200) ∧
       Forall2 (λ b j, field_of "id" j = Some (JStr (Booking.id b)))
               (filter_by_email Studio.s2 "a@example.com") l ∧
       ∀ j, j ∈ l → field_of "user_email" j = Some (JStr "a@example.com").
Proof.
  intros req.
  assert (args req !! "email" = Some "a@example.com") as Hemail by reflexivity.
  assert (validate_email "a@example.com" = true) as Hvalid by reflexivity.
  split_and!; [exact studio_reachable|done|done|].
  exact (@get_bookings_lists_own Fixed.runtime Studio.s2 req "a@example.com"
           studio_reachable Hemail Hvalid).
Defined.
